(** * manage_prefabs: the prefab tool endpoint of the Unity MCP server

    A shallow embedding of [Server/src/services/tools/manage_prefabs.py].
    The tool resolves the editor instance of the calling session, packs the
    caller's arguments into a [params] dictionary, dispatches it through
    [send_with_unity_instance] and turns the reply into the dictionary that
    is handed back to the caller.

    Python values are an inductive type, dictionaries are finite maps with
    string keys, exceptions are explicit outcomes, and every call of the
    dispatcher is appended to a log so that sends can be counted. *)

From Stdlib Require Import ZArith Ascii PrimFloat SpecFloat FloatOps.
From stdpp Require Import gmap strings list fin_maps pretty.

Local Open Scope string_scope.

(** ** Python values *)

(** The values that reach this function: the caller's arguments and the
    JSON-shaped reply of the editor. *)
#[warnings="-register-all"]
Inductive PyVal : Type :=
| VNone
| VBool (b : bool)
| VInt (z : Z)
| VFloat (f : float)
| VStr (s : string)
| VList (l : list PyVal)
| VDict (d : gmap string PyVal).

(** [bool(v)]: the truth value Python gives [v] in [if v:] and in [and]. *)
Definition py_truthy (v : PyVal) : bool :=
  match v with
  | VNone => false
  | VBool b => b
  | VInt z => negb (z =? 0)%Z
  | VFloat f => negb (PrimFloat.eqb f 0%float)
  | VStr s => negb (String.eqb s "")
  | VList l => match l with [] => false | _ :: _ => true end
  | VDict d => negb (bool_decide (d = ∅))
  end.

(** [isinstance(v, dict)]. *)
Definition is_dict (v : PyVal) : bool :=
  match v with VDict _ => true | _ => false end.

(** [v is None]. *)
Definition is_none (v : PyVal) : bool :=
  match v with VNone => true | _ => false end.

(** [d.get(k)] and [d.get(k, dflt)]. *)
Definition dict_get (d : gmap string PyVal) (k : string) : PyVal :=
  default VNone (d !! k).

Definition dict_get_default (d : gmap string PyVal) (k : string) (dflt : PyVal)
  : PyVal :=
  default dflt (d !! k).

(** ** Exceptions and outcomes *)

(** A raised exception: its class name, whether the class derives from
    [Exception] (as opposed to [BaseException] only, like
    [asyncio.CancelledError] or [KeyboardInterrupt]), and [str(exc)]. *)
Record PyExc : Type := mkExc {
  exc_type : string;
  exc_is_exception : bool;
  exc_str : string
}.

(** What evaluating a Python expression yields: a value or a raised
    exception. *)
Inductive Outcome (A : Type) : Type :=
| Ret (a : A)
| Raise (e : PyExc).
Arguments Ret {A} a.
Arguments Raise {A} e.

#[global] Instance Outcome_ret : MRet Outcome := @Ret.
#[global] Instance Outcome_bind : MBind Outcome := λ A B f m,
  match m with
  | Ret a => f a
  | Raise e => Raise e
  end.

(** ** The dispatch log *)

(** One call of [send_with_unity_instance(async_send_command_with_retry,
    instance, command, params)]. *)
Record SendCall : Type := mkSend {
  sc_instance : PyVal;
  sc_command : string;
  sc_params : gmap string PyVal
}.

(** Effectful computations: they may raise, and they extend the log of
    dispatches performed so far. *)
Definition Eff (A : Type) : Type := list SendCall → Outcome A * list SendCall.

#[global] Instance Eff_ret : MRet Eff := λ A a log, (Ret a, log).
#[global] Instance Eff_bind : MBind Eff := λ A B f m log,
  match m log with
  | (Ret a, log') => f a log'
  | (Raise e, log') => (Raise e, log')
  end.

(** A computation without sends. *)
Definition lift {A : Type} (o : Outcome A) : Eff A := λ log, (o, log).

(** [try: body except Exception as exc: handler(exc)]. An exception whose
    class does not derive from [Exception] is not caught. *)
Definition try_except_Exception {A : Type} (body : Eff A)
    (handler : PyExc → Eff A) : Eff A := λ log,
  match body log with
  | (Ret a, log') => (Ret a, log')
  | (Raise e, log') =>
      if exc_is_exception e then handler e log' else (Raise e, log')
  end.

(** ** The collaborators imported by the module

    [manage_prefabs.py] imports these functions from elsewhere; the
    embedding is parametric in them. Each may raise, like any Python call. *)
Class Services (Ctx : Type) : Type := mkServices {
  (** the builtin [str], applied to the reply *)
  py_str : PyVal → string;
  (** [services.tools.get_unity_instance_from_context] *)
  get_unity_instance_from_context : Ctx → Outcome PyVal;
  (** [services.tools.utils.coerce_bool] *)
  coerce_bool : PyVal → Outcome PyVal;
  (** [services.tools.utils.coerce_int], with its [default] argument *)
  coerce_int : PyVal → PyVal → Outcome PyVal;
  (** the reply of [send_with_unity_instance(async_send_command_with_retry,
      instance, command, params)] *)
  send_with_unity_instance :
    PyVal → string → gmap string PyVal → Outcome PyVal
}.

(** ** The tool *)

(** The arguments of [manage_prefabs] after [ctx]; every optional one
    defaults to [None]. *)
Record Args : Type := mkArgs {
  action : PyVal;
  prefab_path : PyVal;
  mode : PyVal;
  save_before_close : PyVal;
  target : PyVal;
  allow_overwrite : PyVal;
  search_inactive : PyVal;
  parent : PyVal;
  page_size : PyVal;
  cursor : PyVal;
  include_transform : PyVal
}.

(** [if v: params[k] = v] *)
Definition set_if_truthy (k : string) (v : PyVal) (params : gmap string PyVal)
  : gmap string PyVal :=
  if py_truthy v then <[k := v]> params else params.

(** [if v is not None: params[k] = v] *)
Definition set_if_not_none (k : string) (v : PyVal)
    (params : gmap string PyVal) : gmap string PyVal :=
  if is_none v then params else <[k := v]> params.

(** The success message used when the reply has none. *)
Definition default_success_message : string := "Prefab operation successful.".

(** The prefix of the message built in the [except] clause. *)
Definition error_prefix : string := "Python error managing prefabs: ".

(** The dictionary returned from the [except] clause. *)
Definition error_result (exc : PyExc) : PyVal :=
  VDict {[ "success" := VBool false;
           "message" := VStr (error_prefix +:+ exc_str exc) ]}.

Section tool.
Context {Ctx : Type} `{!Services Ctx}.

(** Lines 49-76: the [params] dictionary. *)
Definition build_params (a : Args) : Outcome (gmap string PyVal) :=
  let params : gmap string PyVal := {[ "action" := action a ]} in
  let params := set_if_truthy "prefabPath" (prefab_path a) params in
  let params := set_if_truthy "mode" (mode a) params in
  save_before_close_val ← coerce_bool (save_before_close a);
  let params := set_if_not_none "saveBeforeClose" save_before_close_val params in
  let params := set_if_truthy "target" (target a) params in
  allow_overwrite_val ← coerce_bool (allow_overwrite a);
  let params := set_if_not_none "allowOverwrite" allow_overwrite_val params in
  search_inactive_val ← coerce_bool (search_inactive a);
  let params := set_if_not_none "searchInactive" search_inactive_val params in
  let params := set_if_truthy "parent" (parent a) params in
  coerced_page_size ← coerce_int (page_size a) VNone;
  let params := set_if_not_none "pageSize" coerced_page_size params in
  coerced_cursor ← coerce_int (cursor a) VNone;
  let params := set_if_not_none "cursor" coerced_cursor params in
  include_transform_val ← coerce_bool (include_transform a);
  let params := set_if_not_none "includeTransform" include_transform_val params in
  mret params.

(** Line 77: the dispatch, recorded in the log. *)
Definition dispatch (unity_instance : PyVal) (command : string)
    (params : gmap string PyVal) : Eff PyVal := λ log,
  (send_with_unity_instance unity_instance command params,
   (log ++ [mkSend unity_instance command params])%list).

(** Lines 79-85: from the reply to the returned dictionary. *)
Definition normalize_response (response : PyVal) : PyVal :=
  match response with
  | VDict d =>
      if py_truthy (dict_get d "success") then
        VDict {[ "success" := VBool true;
                 "message" := dict_get_default d "message"
                                (VStr default_success_message);
                 "data" := dict_get d "data" ]}
      else response
  | _ => VDict {[ "success" := VBool false;
                  "message" := VStr (py_str response) ]}
  end.

(** Lines 49-85: the body of the [try]. *)
Definition try_body (unity_instance : PyVal) (a : Args) : Eff PyVal :=
  params ← lift (build_params a);
  response ← dispatch unity_instance "manage_prefabs" params;
  mret (normalize_response response).

(** Lines 44-87. *)
Definition manage_prefabs (ctx : Ctx) (a : Args) : Eff PyVal :=
  unity_instance ← lift (get_unity_instance_from_context ctx);
  try_except_Exception (try_body unity_instance a)
    (λ exc, mret (error_result exc)).


(** The four ways a call can go, with the outcome and the dispatches made. *)
Inductive Run (ctx : Ctx) (a : Args) : Outcome PyVal → list SendCall → Prop :=
| RunNoInstance e :
    get_unity_instance_from_context ctx = Raise e →
    Run ctx a (Raise e) []
| RunBuildError inst e :
    get_unity_instance_from_context ctx = Ret inst →
    build_params a = Raise e →
    Run ctx a (if exc_is_exception e then Ret (error_result e) else Raise e) []
| RunDispatchError inst params e :
    get_unity_instance_from_context ctx = Ret inst →
    build_params a = Ret params →
    send_with_unity_instance inst "manage_prefabs" params = Raise e →
    Run ctx a (if exc_is_exception e then Ret (error_result e) else Raise e)
      [mkSend inst "manage_prefabs" params]
| RunReply inst params response :
    get_unity_instance_from_context ctx = Ret inst →
    build_params a = Ret params →
    send_with_unity_instance inst "manage_prefabs" params = Ret response →
    Run ctx a (Ret (normalize_response response))
      [mkSend inst "manage_prefabs" params].

End tool.

(** ** Collaborators modelled from the specification

    The sources of the resolver, of the coercion helpers and of the
    transport are not part of this development; the instances below follow
    the specification's description of them. *)

(** Modelled from the spec: the error of the taxonomy ("NoActiveInstance:
    no instance resolved for session"), which the resolver's source would
    define. *)
Definition NoActiveInstance : PyExc :=
  mkExc "NoActiveInstance" true "No active instance".

(** Modelled from the spec: the Instance Resolver
    ([get_unity_instance_from_context], whose source is missing). "Given a
    caller session/context, returns the InstanceHandle currently bound to
    that session. Fails with NoActiveInstance when no instance is bound.
    Must not perform network I/O itself - purely a registry lookup keyed by
    context identity." *)
Definition registry_lookup (registry : gmap string PyVal) (ctx : string)
  : Outcome PyVal :=
  match registry !! ctx with
  | Some handle => Ret handle
  | None => Raise NoActiveInstance
  end.

Definition ascii_lower (c : ascii) : ascii :=
  let n := nat_of_ascii c in
  if (65 <=? n)%nat && (n <=? 90)%nat then ascii_of_nat (n + 32) else c.

Fixpoint string_lower (s : string) : string :=
  match s with
  | EmptyString => EmptyString
  | String c s' => String (ascii_lower c) (string_lower s')
  end.

(** Modelled from the spec: the boolean coercion ([coerce_bool], whose
    source is missing). "Accepts native boolean, or case-insensitive string
    forms (true/false/1/0/yes/no); unrecognized input yields no value
    rather than raising." *)
Definition spec_coerce_bool (v : PyVal) : Outcome PyVal :=
  match v with
  | VBool b => Ret (VBool b)
  | VStr s =>
      let lowered := string_lower s in
      if bool_decide (lowered ∈ ["true"; "1"; "yes"]) then Ret (VBool true)
      else if bool_decide (lowered ∈ ["false"; "0"; "no"]) then Ret (VBool false)
      else Ret VNone
  | _ => Ret VNone
  end.

(** The integer a float denotes, when it denotes one. *)
Definition float_integral (f : float) : option Z :=
  match Prim2SF f with
  | S754_zero _ => Some 0%Z
  | S754_finite sign m e =>
      let magnitude :=
        if (0 <=? e)%Z then Some (Z.pos m * 2 ^ e)%Z
        else if (Z.pos m mod 2 ^ (- e) =? 0)%Z then Some (Z.pos m / 2 ^ (- e))%Z
        else None in
      (if sign then Z.opp else id) <$> magnitude
  | _ => None
  end.

Definition digit_of (c : ascii) : option Z :=
  let n := nat_of_ascii c in
  if (48 <=? n)%nat && (n <=? 57)%nat then Some (Z.of_nat (n - 48)) else None.

Fixpoint parse_digits (s : string) (acc : Z) : option Z :=
  match s with
  | EmptyString => Some acc
  | String c s' =>
      match digit_of c with
      | Some d => parse_digits s' (10 * acc + d)%Z
      | None => None
      end
  end.

(** Decimal integer literals with an optional sign. *)
Definition parse_int (s : string) : option Z :=
  match s with
  | EmptyString => None
  | String "-"%char EmptyString | String "+"%char EmptyString => None
  | String "-"%char s' => Z.opp <$> parse_digits s' 0
  | String "+"%char s' => parse_digits s' 0
  | _ => parse_digits s 0
  end.

(** Modelled from the spec: the integer coercion ([coerce_int], whose
    source is missing). "Accepts native integer, float with integral value,
    or numeric string; non-numeric input yields no value; an explicit
    default may be supplied, returned when input is absent." *)
Definition spec_coerce_int (v dflt : PyVal) : Outcome PyVal :=
  match v with
  | VNone => Ret dflt
  | VInt z => Ret (VInt z)
  | VFloat f => Ret (from_option VInt VNone (float_integral f))
  | VStr s => Ret (from_option VInt VNone (parse_int s))
  | _ => Ret VNone
  end.

(** Python's [str] on [None], booleans, integers and strings. Floats and
    containers are shown by an ellipsis only: the instances below apply
    [str] to scalars. *)
Definition str_of_scalar (v : PyVal) : string :=
  match v with
  | VNone => "None"
  | VBool true => "True"
  | VBool false => "False"
  | VInt z => pretty z
  | VStr s => s
  | VFloat _ | VList _ | VDict _ => "..."
  end.

(** A session registry, the coercions above, and a transport double that
    answers every dispatch with [reply]. *)
Definition mock_services (registry : gmap string PyVal)
    (reply : Outcome PyVal) : Services string :=
  {| py_str := str_of_scalar;
     get_unity_instance_from_context := registry_lookup registry;
     coerce_bool := spec_coerce_bool;
     coerce_int := spec_coerce_int;
     send_with_unity_instance := λ _ _ _, reply |}.

(** Arguments with only [action] given. *)
Definition only_action (act : string) : Args :=
  mkArgs (VStr act) VNone VNone VNone VNone VNone VNone VNone VNone VNone VNone.

(** The [get_hierarchy] call of the scenario: parent "Root", page size 50,
    cursor 0. *)
Definition get_hierarchy_args : Args :=
  mkArgs (VStr "get_hierarchy") VNone VNone VNone VNone VNone VNone
    (VStr "Root") (VInt 50) (VInt 0) VNone.

(** One session with an editor bound to it. *)
Definition one_editor : gmap string PyVal :=
  {[ "session-1" := VStr "MyGame@a1b2c3" ]}.

(** The page a mock editor answers [get_hierarchy] with. *)
Definition hierarchy_page (items : list PyVal) : PyVal :=
  VDict {[ "items" := VList items; "nextCursor" := VInt 50 ]}.

(** A transport error, as a dispatch that cannot reach the editor raises. *)
Definition connection_refused : PyExc :=
  mkExc "ConnectionError" true "Could not connect to Unity".

(** The reply of the [get_hierarchy] scenario: success and data, no message. *)
Definition hierarchy_reply (items : list PyVal) : PyVal :=
  VDict {[ "success" := VBool true; "data" := hierarchy_page items ]}.

(** A failure reply that explains itself under "error" and has no
    "message". *)
Definition prefab_not_found_reply : PyVal :=
  VDict {[ "success" := VBool false; "error" := VStr "Prefab not found" ]}.

(** ** Shapes of results *)

(** The canonical envelopes of the result contract. *)
Definition success_envelope (message data : PyVal) : PyVal :=
  VDict {[ "success" := VBool true; "message" := message; "data" := data ]}.

Definition failure_envelope (message : PyVal) : PyVal :=
  VDict {[ "success" := VBool false; "message" := message ]}.

(** [r["success"] is True]. *)
Definition is_success_result (r : PyVal) : bool :=
  match r with
  | VDict d => match d !! "success" with Some (VBool true) => true | _ => false end
  | _ => false
  end.

(** [r] is a mapping whose "success" is missing or falsy. *)
Definition is_failure_result (r : PyVal) : bool :=
  match r with
  | VDict d => negb (py_truthy (dict_get d "success"))
  | _ => false
  end.

(** [r["message"]] is a non-empty string. *)
Definition has_nonempty_message (r : PyVal) : bool :=
  match r with
  | VDict d =>
      match d !! "message" with
      | Some (VStr m) => negb (String.eqb m "")
      | _ => false
      end
  | _ => false
  end.

(** A field of a returned mapping. *)
Definition result_field (o : Outcome PyVal) (k : string) : option PyVal :=
  match o with
  | Ret (VDict d) => d !! k
  | _ => None
  end.

(** ** The optional fields of the command *)

Inductive FieldKind : Type := StringField | BoolField | IntField.

(** Key in [params], declared kind, and the argument it is taken from. *)
Definition optional_fields : list (string * FieldKind * (Args → PyVal)) :=
  [ ("prefabPath", StringField, prefab_path);
    ("mode", StringField, mode);
    ("saveBeforeClose", BoolField, save_before_close);
    ("target", StringField, target);
    ("allowOverwrite", BoolField, allow_overwrite);
    ("searchInactive", BoolField, search_inactive);
    ("parent", StringField, parent);
    ("pageSize", IntField, page_size);
    ("cursor", IntField, cursor);
    ("includeTransform", BoolField, include_transform) ].

(** An argument resolves to the defined value [v]: a string-like argument
    when it is truthy, a coerced one when the coercion returns something
    other than [None]. *)
Definition resolves_to {Ctx : Type} `{!Services Ctx} (kind : FieldKind)
    (arg v : PyVal) : Prop :=
  match kind with
  | StringField => py_truthy arg = true ∧ v = arg
  | BoolField => coerce_bool arg = Ret v ∧ v ≠ VNone
  | IntField => coerce_int arg VNone = Ret v ∧ v ≠ VNone
  end.

(** The coercions degrade instead of raising, and give [None] for an
    argument that was not supplied. *)
Definition coercions_never_raise {Ctx : Type} `{!Services Ctx} : Prop :=
  (∀ v, ∃ r, coerce_bool v = Ret r) ∧ (∀ v dflt, ∃ r, coerce_int v dflt = Ret r).

Definition coercions_keep_absent {Ctx : Type} `{!Services Ctx} : Prop :=
  coerce_bool VNone = Ret VNone ∧ coerce_int VNone VNone = Ret VNone.

(** [params] once the five coercions have returned. *)
Definition params_with (a : Args)
    (save_before_close_val allow_overwrite_val search_inactive_val
     coerced_page_size coerced_cursor include_transform_val : PyVal)
  : gmap string PyVal :=
  set_if_not_none "includeTransform" include_transform_val
    (set_if_not_none "cursor" coerced_cursor
      (set_if_not_none "pageSize" coerced_page_size
        (set_if_truthy "parent" (parent a)
          (set_if_not_none "searchInactive" search_inactive_val
            (set_if_not_none "allowOverwrite" allow_overwrite_val
              (set_if_truthy "target" (target a)
                (set_if_not_none "saveBeforeClose" save_before_close_val
                  (set_if_truthy "mode" (mode a)
                    (set_if_truthy "prefabPath" (prefab_path a)
                      {[ "action" := action a ]}))))))))).

(** ** What the construction of the parameters can produce *)

(** Every key lines 49-76 can assign. *)
Definition known_keys : gset string :=
  {[ "action"; "prefabPath"; "mode"; "saveBeforeClose"; "target";
     "allowOverwrite"; "searchInactive"; "parent"; "pageSize"; "cursor";
     "includeTransform" ]}.

(** No key other than "action" holds [None]. *)
Definition none_only_at_action (params : gmap string PyVal) : Prop :=
  ∀ k, k ≠ "action" → params !! k ≠ Some VNone.

(** The first exception in a sequence of evaluated calls, if any. *)
Fixpoint first_raise {A : Type} (calls : list (Outcome A)) : option PyExc :=
  match calls with
  | [] => None
  | Ret _ :: rest => first_raise rest
  | Raise e :: _ => Some e
  end.

(** The calls made while the parameters are built, in the order of lines
    55, 60, 63, 68, 71 and 74. *)
Definition coercion_calls {Ctx : Type} `{!Services Ctx} (a : Args)
  : list (Outcome PyVal) :=
  [ coerce_bool (save_before_close a);
    coerce_bool (allow_overwrite a);
    coerce_bool (search_inactive a);
    coerce_int (page_size a) VNone;
    coerce_int (cursor a) VNone;
    coerce_bool (include_transform a) ].

(** A cancellation, which does not derive from [Exception]. *)
Definition cancelled : PyExc := mkExc "CancelledError" false "".

(** A coercion helper that rejects what it cannot read. *)
Definition strict_bool (v : PyVal) : Outcome PyVal :=
  match v with
  | VNone => Ret VNone
  | VBool b => Ret (VBool b)
  | _ => Raise (mkExc "ValueError" true "not a boolean")
  end.

(** Like [mock_services], with the strict boolean coercion. *)
Definition strict_services (registry : gmap string PyVal)
    (reply : Outcome PyVal) : Services string :=
  {| py_str := str_of_scalar;
     get_unity_instance_from_context := registry_lookup registry;
     coerce_bool := strict_bool;
     coerce_int := spec_coerce_int;
     send_with_unity_instance := λ _ _ _, reply |}.

(** * Properties *)

Example coerce_bool_yes : spec_coerce_bool (VStr "YES") = Ret (VBool true).
Proof. reflexivity. Qed.
Example coerce_int_fifty : spec_coerce_int (VStr "50") VNone = Ret (VInt 50).
Proof. reflexivity. Qed.
Example coerce_int_float : spec_coerce_int (VFloat 50%float) VNone = Ret (VInt 50).
Proof. vm_compute. reflexivity. Qed.
Example coerce_int_half : spec_coerce_int (VFloat 0.5%float) VNone = Ret VNone.
Proof. vm_compute. reflexivity. Qed.
Example coerce_int_word : spec_coerce_int (VStr "many") VNone = Ret VNone.
Proof. reflexivity. Qed.
Example params_get_hierarchy :
  build_params (Services0 := mock_services one_editor (Ret VNone))
    get_hierarchy_args
  = Ret {[ "action" := VStr "get_hierarchy"; "parent" := VStr "Root";
           "pageSize" := VInt 50; "cursor" := VInt 0 ]}.
Proof. vm_compute. reflexivity. Qed.

(** ** Lookups in the parameter dictionary *)

Lemma lookup_set_if_truthy_eq k v (params : gmap string PyVal) :
  set_if_truthy k v params !! k = if py_truthy v then Some v else params !! k.
Proof.
  unfold set_if_truthy. destruct (py_truthy v); [apply lookup_insert_eq|done].
Qed.

Lemma lookup_set_if_truthy_ne k k' v (params : gmap string PyVal) :
  k ≠ k' → set_if_truthy k v params !! k' = params !! k'.
Proof.
  intros Hne. unfold set_if_truthy.
  destruct (py_truthy v); [by apply lookup_insert_ne|done].
Qed.

Lemma lookup_set_if_not_none_eq k v (params : gmap string PyVal) :
  set_if_not_none k v params !! k = if is_none v then params !! k else Some v.
Proof.
  unfold set_if_not_none. destruct (is_none v); [done|apply lookup_insert_eq].
Qed.

Lemma lookup_set_if_not_none_ne k k' v (params : gmap string PyVal) :
  k ≠ k' → set_if_not_none k v params !! k' = params !! k'.
Proof.
  intros Hne. unfold set_if_not_none.
  destruct (is_none v); [done|by apply lookup_insert_ne].
Qed.

Lemma is_none_true v : is_none v = true ↔ v = VNone.
Proof. by destruct v. Qed.

Lemma truthy_not_none v : py_truthy v = true → v ≠ VNone.
Proof. by destruct v. Qed.

(** Push a lookup through the conditional assignments of lines 51-76. *)
Ltac lookup_params :=
  unfold params_with;
  repeat first
    [ rewrite lookup_set_if_truthy_eq
    | rewrite lookup_set_if_not_none_eq
    | rewrite lookup_set_if_truthy_ne by done
    | rewrite lookup_set_if_not_none_ne by done ];
  rewrite ?lookup_singleton_eq, ?lookup_singleton_ne by done.

Lemma params_with_action a v1 v2 v3 v4 v5 v6 :
  params_with a v1 v2 v3 v4 v5 v6 !! "action" = Some (action a).
Proof. by lookup_params. Qed.

Section runs.
Context {Ctx : Type} `{!Services Ctx}.
Implicit Types (ctx : Ctx) (a : Args) (log : list SendCall).
Implicit Types (params d : gmap string PyVal) (e : PyExc).

(** When the parameters are built, each coercion has returned and the
    dictionary is the chain of conditional assignments. *)
Lemma build_params_inv a params :
  build_params a = Ret params →
  ∃ v1 v2 v3 v4 v5 v6,
    coerce_bool (save_before_close a) = Ret v1 ∧
    coerce_bool (allow_overwrite a) = Ret v2 ∧
    coerce_bool (search_inactive a) = Ret v3 ∧
    coerce_int (page_size a) VNone = Ret v4 ∧
    coerce_int (cursor a) VNone = Ret v5 ∧
    coerce_bool (include_transform a) = Ret v6 ∧
    params = params_with a v1 v2 v3 v4 v5 v6.
Proof.
  unfold build_params, mbind, Outcome_bind, mret, Outcome_ret.
  destruct (coerce_bool (save_before_close a)) as [v1|]; [|done].
  destruct (coerce_bool (allow_overwrite a)) as [v2|]; [|done].
  destruct (coerce_bool (search_inactive a)) as [v3|]; [|done].
  destruct (coerce_int (page_size a) VNone) as [v4|]; [|done].
  destruct (coerce_int (cursor a) VNone) as [v5|]; [|done].
  destruct (coerce_bool (include_transform a)) as [v6|]; [|done].
  intros [= <-]. by exists v1, v2, v3, v4, v5, v6.
Qed.

(** Coercions that return make the construction return. *)
Lemma build_params_total a :
  coercions_never_raise → ∃ params, build_params a = Ret params.
Proof.
  intros [Hb Hi].
  unfold build_params, mbind, Outcome_bind, mret, Outcome_ret.
  destruct (Hb (save_before_close a)) as [v1 ->].
  destruct (Hb (allow_overwrite a)) as [v2 ->].
  destruct (Hb (search_inactive a)) as [v3 ->].
  destruct (Hi (page_size a) VNone) as [v4 ->].
  destruct (Hi (cursor a) VNone) as [v5 ->].
  destruct (Hb (include_transform a)) as [v6 ->].
  by eexists.
Qed.

(** Line 49: [action] is in the dictionary whatever else is. *)
Lemma build_params_action a params :
  build_params a = Ret params → params !! "action" = Some (action a).
Proof.
  intros (v1 & v2 & v3 & v4 & v5 & v6 & _ & _ & _ & _ & _ & _ & ->)%build_params_inv.
  apply params_with_action.
Qed.

(** An error of the resolver leaves the function as it is: line 46 comes
    before the [try]. *)
Lemma run_resolution_raises ctx a log e :
  get_unity_instance_from_context ctx = Raise e →
  manage_prefabs ctx a log = (Raise e, log).
Proof.
  intros Hres. unfold manage_prefabs, mbind, Eff_bind, lift.
  by rewrite Hres.
Qed.

(** An error while the parameters are built: nothing was sent. *)
Lemma run_build_raises ctx a log inst e :
  get_unity_instance_from_context ctx = Ret inst →
  build_params a = Raise e →
  manage_prefabs ctx a log =
    (if exc_is_exception e then Ret (error_result e) else Raise e, log).
Proof.
  intros Hres Hb.
  unfold manage_prefabs, try_except_Exception, try_body, mbind, Eff_bind, lift.
  rewrite Hres, Hb. by destruct (exc_is_exception e).
Qed.

(** An error of the dispatch: one call was made. *)
Lemma run_dispatch_raises ctx a log inst params e :
  get_unity_instance_from_context ctx = Ret inst →
  build_params a = Ret params →
  send_with_unity_instance inst "manage_prefabs" params = Raise e →
  manage_prefabs ctx a log =
    (if exc_is_exception e then Ret (error_result e) else Raise e,
     (log ++ [mkSend inst "manage_prefabs" params])%list).
Proof.
  intros Hres Hb Hs.
  unfold manage_prefabs, try_except_Exception, try_body, dispatch,
    mbind, Eff_bind, lift.
  rewrite Hres, Hb, Hs. by destruct (exc_is_exception e).
Qed.

(** A reply: one call was made and the reply is normalized. *)
Lemma run_reply ctx a log inst params response :
  get_unity_instance_from_context ctx = Ret inst →
  build_params a = Ret params →
  send_with_unity_instance inst "manage_prefabs" params = Ret response →
  manage_prefabs ctx a log =
    (Ret (normalize_response response),
     (log ++ [mkSend inst "manage_prefabs" params])%list).
Proof.
  intros Hres Hb Hs.
  unfold manage_prefabs, try_except_Exception, try_body, dispatch,
    mbind, Eff_bind, lift.
  by rewrite Hres, Hb, Hs.
Qed.

(** Every call goes one of the four ways of [Run]. *)
Lemma manage_prefabs_run ctx a log :
  ∃ out sends, manage_prefabs ctx a log = (out, (log ++ sends)%list)
               ∧ Run ctx a out sends.
Proof.
  destruct (get_unity_instance_from_context ctx) as [inst|e] eqn:Hres.
  - destruct (build_params a) as [params|e] eqn:Hb.
    + destruct (send_with_unity_instance inst "manage_prefabs" params)
        as [response|e] eqn:Hs.
      * eexists _, _. split; [by eapply run_reply|by eapply RunReply].
      * eexists _, _. split;
          [by eapply run_dispatch_raises|by eapply RunDispatchError].
    + eexists _, []. rewrite app_nil_r.
      split; [by eapply run_build_raises|by eapply RunBuildError].
  - eexists _, []. rewrite app_nil_r.
    split; [by eapply run_resolution_raises|by eapply RunNoInstance].
Qed.

(** Lines 79-84 on a reply with a truthy "success". *)
Lemma normalize_response_success d :
  py_truthy (default VNone (d !! "success")) = true →
  normalize_response (VDict d) =
    VDict {[ "success" := VBool true;
             "message" := default (VStr default_success_message) (d !! "message");
             "data" := default VNone (d !! "data") ]}.
Proof. intros Ht. simpl. unfold dict_get. by rewrite Ht. Qed.

(** ** Errors raised inside the [try] *)

(** C1 (amended): in every invocation whose instance resolution returns, an
    error of class [Exception] raised while the parameters are built or
    during the dispatch does not reach the caller; the call returns the
    mapping with success=False whose message is the fixed prefix
    "Python error managing prefabs: " followed by the error's description. *)
Theorem errors_inside_try_become_failure_results ctx a log inst e :
  get_unity_instance_from_context ctx = Ret inst →
  (build_params a = Raise e ∨
   ∃ params, build_params a = Ret params ∧
             send_with_unity_instance inst "manage_prefabs" params = Raise e) →
  exc_is_exception e = true →
  (manage_prefabs ctx a log).1 =
    Ret (VDict {[ "success" := VBool false;
                  "message" := VStr ("Python error managing prefabs: "
                                     +:+ exc_str e) ]}).
Proof.
  intros Hres [Hb|(params & Hb & Hs)] Hexc.
  - rewrite (run_build_raises _ _ _ _ _ Hres Hb), Hexc. done.
  - rewrite (run_dispatch_raises _ _ _ _ _ _ Hres Hb Hs), Hexc. done.
Qed.

(** ** Replies *)

(** C3 (amended): a reply that is a mapping with a truthy "success" comes
    back as success=True, with the reply's "message" or, when the reply has
    none, the fixed default "Prefab operation successful.", and with the
    reply's "data" ([None] when the reply has none). *)
Theorem success_reply_envelope ctx a log inst params d :
  get_unity_instance_from_context ctx = Ret inst →
  build_params a = Ret params →
  send_with_unity_instance inst "manage_prefabs" params = Ret (VDict d) →
  py_truthy (default VNone (d !! "success")) = true →
  (manage_prefabs ctx a log).1 =
    Ret (VDict {[ "success" := VBool true;
                  "message" := default (VStr "Prefab operation successful.")
                                 (d !! "message");
                  "data" := default VNone (d !! "data") ]}).
Proof.
  intros Hres Hb Hs Ht.
  rewrite (run_reply _ _ _ _ _ _ Hres Hb Hs).
  by rewrite normalize_response_success.
Qed.

(** C4: a reply that is a mapping without "success", or with a falsy one,
    is returned as it is: the same mapping, nothing added, nothing removed. *)
Theorem failure_reply_passed_through ctx a log inst params d :
  get_unity_instance_from_context ctx = Ret inst →
  build_params a = Ret params →
  send_with_unity_instance inst "manage_prefabs" params = Ret (VDict d) →
  (d !! "success" = None ∨
   ∃ v, d !! "success" = Some v ∧ py_truthy v = false) →
  (manage_prefabs ctx a log).1 = Ret (VDict d).
Proof.
  intros Hres Hb Hs Hf.
  rewrite (run_reply _ _ _ _ _ _ Hres Hb Hs). simpl.
  unfold dict_get.
  destruct Hf as [->|(v & -> & Hv)]; simpl; [done|by rewrite Hv].
Qed.

(** C8: a reply that is not a mapping comes back as success=False with the
    reply's string representation as message. *)
Theorem non_mapping_reply_stringified ctx a log inst params response :
  get_unity_instance_from_context ctx = Ret inst →
  build_params a = Ret params →
  send_with_unity_instance inst "manage_prefabs" params = Ret response →
  is_dict response = false →
  (manage_prefabs ctx a log).1 =
    Ret (VDict {[ "success" := VBool false;
                  "message" := VStr (py_str response) ]}).
Proof.
  intros Hres Hb Hs Hd.
  rewrite (run_reply _ _ _ _ _ _ Hres Hb Hs). simpl.
  by destruct response.
Qed.

(** C10: for a reply with a truthy "success" the returned mapping has the
    three keys "success", "message" and "data" and no other; "data" is
    there even when the reply has none (then it is [None]), and every other
    key of the reply is gone. *)
Theorem success_result_has_three_keys ctx a log inst params d :
  get_unity_instance_from_context ctx = Ret inst →
  build_params a = Ret params →
  send_with_unity_instance inst "manage_prefabs" params = Ret (VDict d) →
  py_truthy (default VNone (d !! "success")) = true →
  ∃ r, (manage_prefabs ctx a log).1 = Ret (VDict r) ∧
       dom r = ({[ "success"; "message"; "data" ]} : gset string) ∧
       r !! "data" = Some (default VNone (d !! "data")) ∧
       (d !! "data" = None → r !! "data" = Some VNone) ∧
       (∀ k, k ≠ "success" → k ≠ "message" → k ≠ "data" → r !! k = None).
Proof.
  intros Hres Hb Hs Ht.
  eexists. split.
  { rewrite (run_reply _ _ _ _ _ _ Hres Hb Hs).
    by rewrite normalize_response_success. }
  split; [|split; [|split]].
  - rewrite !dom_insert_L, dom_singleton_L. set_solver.
  - by rewrite lookup_insert_ne, lookup_insert_ne, lookup_singleton_eq.
  - intros Hnone.
    by rewrite lookup_insert_ne, lookup_insert_ne, lookup_singleton_eq, Hnone.
  - intros k H1 H2 H3.
    by rewrite lookup_insert_ne, lookup_insert_ne, lookup_singleton_ne.
Qed.

(** ** The dispatched command *)

(** C9: whenever the call reaches the dispatch, the dictionary sent under
    the command name "manage_prefabs" holds, under the key "action", the
    action exactly as it was supplied; nothing about the action is checked,
    so an empty one is sent like any other. *)
Theorem action_dispatched_as_supplied ctx a log inst params :
  get_unity_instance_from_context ctx = Ret inst →
  build_params a = Ret params →
  (manage_prefabs ctx a log).2
    = (log ++ [mkSend inst "manage_prefabs" params])%list
  ∧ params !! "action" = Some (action a).
Proof.
  intros Hres Hb. split; [|by apply build_params_action].
  destruct (send_with_unity_instance inst "manage_prefabs" params)
    as [response|e] eqn:Hs.
  - by rewrite (run_reply _ _ _ _ _ _ Hres Hb Hs).
  - by rewrite (run_dispatch_raises _ _ _ _ _ _ Hres Hb Hs).
Qed.

(** ** Normalization *)

Lemma normalize_response_is_dict response :
  is_dict (normalize_response response) = true.
Proof.
  destruct response as [| | | | | |d]; try done.
  simpl. by destruct (py_truthy (dict_get d "success")).
Qed.

(** A mapping on the failure path is left alone. *)
Lemma normalize_response_failure r :
  is_failure_result r = true → normalize_response r = r.
Proof.
  destruct r as [| | | | | |d]; try done.
  simpl. by destruct (py_truthy (dict_get d "success")).
Qed.

(** What the function builds for a non-mapping is on the failure path. *)
Lemma failure_envelope_is_failure m : is_failure_result (failure_envelope m) = true.
Proof. done. Qed.

(** C7: normalization is idempotent. A canonical success mapping
    {success: True, message: m, data: d} and a canonical failure mapping
    (indeed every mapping whose "success" is missing or falsy) go through
    unchanged, message and data included; hence normalizing twice is
    normalizing once. *)
Theorem normalize_response_idempotent :
  (∀ m data, normalize_response (success_envelope m data)
             = success_envelope m data) ∧
  (∀ m, normalize_response (failure_envelope m) = failure_envelope m) ∧
  (∀ r, is_failure_result r = true → normalize_response r = r) ∧
  (∀ response, normalize_response (normalize_response response)
               = normalize_response response).
Proof.
  assert (Hs : ∀ m data, normalize_response (success_envelope m data)
                         = success_envelope m data).
  { intros m data. unfold success_envelope, normalize_response.
    unfold dict_get, dict_get_default.
    rewrite lookup_insert_eq. simpl.
    by rewrite lookup_insert_ne, lookup_insert_eq, lookup_insert_ne,
      lookup_insert_ne, lookup_singleton_eq. }
  split; [done|]. split; [|split].
  - intros m. by apply normalize_response_failure.
  - apply normalize_response_failure.
  - intros [| | | | | |d]; try by apply normalize_response_failure.
    simpl. destruct (py_truthy (dict_get d "success")) eqn:Ht.
    + apply Hs.
    + simpl. by rewrite Ht.
Qed.

(** ** The shape of every result *)

Lemma error_result_has_message e :
  has_nonempty_message (error_result e) = true.
Proof. done. Qed.

(** C5 (amended): every result the function returns is a mapping on exactly
    one of two paths. On the success path "success" is [True] and both
    "message" and "data" are present. On the failure path "success" is
    missing or falsy, and the result is one of three things: the mapping
    built for a caught error, whose message is a non-empty string; the
    mapping built for a reply that is not a mapping, with [str] of the
    reply as message; or the reply mapping itself, handed back as it came,
    with whatever message it carries or lacks. *)
Theorem result_on_exactly_one_path ctx a log r :
  (manage_prefabs ctx a log).1 = Ret r →
  (is_success_result r = true ∧ is_failure_result r = false ∧
   is_Some (result_field (Ret r) "message") ∧
   is_Some (result_field (Ret r) "data"))
  ∨
  (is_failure_result r = true ∧ is_success_result r = false ∧
   ((∃ e, r = error_result e ∧ has_nonempty_message r = true) ∨
    (∃ response, is_dict response = false ∧
                 r = failure_envelope (VStr (py_str response))) ∨
    (∃ inst params, is_dict r = true ∧
       send_with_unity_instance inst "manage_prefabs" params = Ret r))).
Proof.
  destruct (manage_prefabs_run ctx a log) as (out & sends & -> & Hrun).
  simpl. intros ->.
  inversion Hrun as [e He Ho|inst e Hres Hb Ho|inst params e Hres Hb Hs Ho
                    |inst params response Hres Hb Hs Ho]; subst.
  - destruct (exc_is_exception e); [|done].
    injection Ho as <-. right. split; [done|]. split; [done|].
    left. by exists e.
  - destruct (exc_is_exception e); [|done].
    injection Ho as <-. right. split; [done|]. split; [done|].
    left. by exists e.
  - destruct response as [| | | | | |d];
      try (right; split; [done|]; split; [done|]; right; left;
           eexists; split; [|reflexivity]; done).
    simpl. destruct (py_truthy (dict_get d "success")) eqn:Ht.
    + left. split; [done|]. split; [done|]. simpl.
      rewrite lookup_insert_ne, lookup_insert_eq by done.
      rewrite lookup_insert_ne, lookup_insert_ne, lookup_singleton_eq by done.
      split; by eexists.
    + right. simpl. rewrite Ht. split; [done|]. split.
      * unfold dict_get in Ht.
        destruct (d !! "success") as [[| [] | | | | |]|]; done.
      * right; right. by exists inst, params.
Qed.

(** ** Optional fields *)

(** What a key of the table maps to once the coercions have returned. *)
Lemma params_with_optional a v1 v2 v3 v4 v5 v6 k kind arg v :
  coerce_bool (save_before_close a) = Ret v1 →
  coerce_bool (allow_overwrite a) = Ret v2 →
  coerce_bool (search_inactive a) = Ret v3 →
  coerce_int (page_size a) VNone = Ret v4 →
  coerce_int (cursor a) VNone = Ret v5 →
  coerce_bool (include_transform a) = Ret v6 →
  (k, kind, arg) ∈ optional_fields →
  params_with a v1 v2 v3 v4 v5 v6 !! k = Some v ↔ resolves_to kind (arg a) v.
Proof.
  intros H1 H2 H3 H4 H5 H6 Hin.
  unfold optional_fields in Hin.
  repeat (apply elem_of_cons in Hin as [[= -> -> ->]|Hin]);
    [..|by apply elem_of_nil in Hin];
    lookup_params; unfold resolves_to;
    rewrite ?H1, ?H2, ?H3, ?H4, ?H5, ?H6.
  all: try (destruct (py_truthy _) eqn:Ht;
            [split; [by intros [= <-]|by intros [_ ->]]
            |split; [done|intros [Ht' _]; congruence]]).
  all: match goal with
       | |- (if is_none ?x then _ else _) = _ ↔ _ =>
           destruct (is_none x) eqn:Hn;
           [apply is_none_true in Hn; subst x;
            split; [done|intros [[= <-] Hne]; done]
           |split; [intros [= <-]; split; [done|];
                    intros ->; done
                   |by intros [[= <-] _]]]
       end.
Qed.

(** C6: as long as the coercions return (they degrade to [None] instead of
    raising, and give [None] for an argument that was not supplied),
    building the parameters never raises, and an optional key is in the
    dictionary exactly when its argument resolved to a defined value: it is
    never [None] there, and it is left out when the argument is absent,
    when a string argument is empty, and when the boolean or integer
    coercion makes nothing of the input. *)
Theorem params_hold_only_defined_fields a :
  coercions_never_raise →
  coercions_keep_absent →
  ∃ params,
    build_params a = Ret params ∧
    ∀ k kind arg, (k, kind, arg) ∈ optional_fields →
      (∀ v, params !! k = Some v ↔ resolves_to kind (arg a) v) ∧
      params !! k ≠ Some VNone ∧
      (arg a = VNone → params !! k = None) ∧
      (kind = StringField → arg a = VStr "" → params !! k = None) ∧
      (kind = BoolField → coerce_bool (arg a) = Ret VNone →
       params !! k = None) ∧
      (kind = IntField → coerce_int (arg a) VNone = Ret VNone →
       params !! k = None).
Proof.
  intros Htotal [Hb0 Hi0].
  destruct (build_params_total a Htotal) as [params Hb].
  exists params. split; [done|].
  destruct (build_params_inv _ _ Hb)
    as (v1 & v2 & v3 & v4 & v5 & v6 & H1 & H2 & H3 & H4 & H5 & H6 & ->).
  intros k kind arg Hin.
  pose proof (λ v, params_with_optional a v1 v2 v3 v4 v5 v6 k kind arg v
                     H1 H2 H3 H4 H5 H6 Hin) as Hiff.
  assert (Hnone : ∀ v, (∀ w, ¬ resolves_to kind (arg a) w) →
                       params_with a v1 v2 v3 v4 v5 v6 !! k = v → v = None).
  { intros [w|] Hno Hv; [|done]. apply Hiff in Hv. by apply Hno in Hv. }
  split; [done|]. split; [|split; [|split; [|split]]].
  - intros Hv. apply Hiff in Hv.
    destruct kind; simpl in Hv; destruct Hv as [Hv1 Hv2]; try done.
    by rewrite <- Hv2 in Hv1.
  - intros Harg. eapply Hnone; [|done]. intros w.
    rewrite Harg. destruct kind; simpl.
    + by intros [? _].
    + rewrite Hb0. by intros [[= <-] ?].
    + rewrite Hi0. by intros [[= <-] ?].
  - intros -> Harg. eapply Hnone; [|done]. intros w.
    simpl. rewrite Harg. by intros [? _].
  - intros -> Harg. eapply Hnone; [|done]. intros w.
    simpl. rewrite Harg. by intros [[= <-] ?].
  - intros -> Harg. eapply Hnone; [|done]. intros w.
    simpl. rewrite Harg. by intros [[= <-] ?].
Qed.

End runs.

(** ** The modelled coercions *)

Lemma spec_coerce_bool_returns v : ∃ r, spec_coerce_bool v = Ret r.
Proof.
  destruct v; simpl; try by eexists.
  repeat case_bool_decide; by eexists.
Qed.

Lemma spec_coerce_int_returns v dflt : ∃ r, spec_coerce_int v dflt = Ret r.
Proof. destruct v; simpl; by eexists. Qed.

Lemma mock_coercions_never_raise registry reply :
  coercions_never_raise (Services0 := mock_services registry reply).
Proof.
  split; [apply spec_coerce_bool_returns|apply spec_coerce_int_returns].
Qed.

Lemma mock_coercions_keep_absent registry reply :
  coercions_keep_absent (Services0 := mock_services registry reply).
Proof. by split. Qed.

(** ** The properties at work on concrete calls *)

(** A dispatch that cannot reach the editor: the caller gets the failure
    mapping with the prefixed description. *)
Lemma connection_error_converted :
  (manage_prefabs
     (Services0 := mock_services one_editor (Raise connection_refused))
     "session-1" (only_action "open_stage") []).1
  = Ret (VDict {[ "success" := VBool false;
                  "message" := VStr "Python error managing prefabs: Could not connect to Unity" ]}).
Proof.
  apply (errors_inside_try_become_failure_results
           (Services0 := mock_services one_editor (Raise connection_refused))
           "session-1" (only_action "open_stage") []
           (VStr "MyGame@a1b2c3") connection_refused).
  - reflexivity.
  - right. eexists. split; reflexivity.
  - reflexivity.
Defined.

(** An error of the resolver is raised to the caller: no result mapping is
    returned, although the error is an [Exception]. *)
Lemma resolution_error_reaches_caller :
  (manage_prefabs (Services0 := mock_services ∅ (Ret VNone))
     "session-1" (only_action "open_stage") []).1 = Raise NoActiveInstance
  ∧ exc_is_exception NoActiveInstance = true
  ∧ ¬ ∃ r, (manage_prefabs (Services0 := mock_services ∅ (Ret VNone))
              "session-1" (only_action "open_stage") []).1 = Ret r.
Proof.
  split; [reflexivity|]. split; [reflexivity|].
  intros [r Hr]. vm_compute in Hr. discriminate Hr.
Qed.

(** The [get_hierarchy] scenario. *)
Lemma get_hierarchy_scenario :
  (manage_prefabs
     (Services0 := mock_services one_editor
                     (Ret (hierarchy_reply [VStr "Root/Body"; VStr "Root/Head"])))
     "session-1" get_hierarchy_args []).1
  = Ret (VDict {[ "success" := VBool true;
                  "message" := VStr "Prefab operation successful.";
                  "data" := hierarchy_page [VStr "Root/Body"; VStr "Root/Head"] ]}).
Proof.
  etrans.
  - eapply (success_reply_envelope
              (Services0 := mock_services one_editor
                 (Ret (hierarchy_reply [VStr "Root/Body"; VStr "Root/Head"])))
              "session-1" get_hierarchy_args [] (VStr "MyGame@a1b2c3") _
              {[ "success" := VBool true;
                 "data" := hierarchy_page [VStr "Root/Body"; VStr "Root/Head"] ]});
      reflexivity.
  - vm_compute. reflexivity.
Defined.

(** In the scenario the message is the prefab default, not
    "Operation successful.". *)
Lemma get_hierarchy_message_is_prefab_default :
  result_field
    (manage_prefabs
       (Services0 := mock_services one_editor
                       (Ret (hierarchy_reply [VStr "Root/Body"; VStr "Root/Head"])))
       "session-1" get_hierarchy_args []).1 "message"
  = Some (VStr "Prefab operation successful.")
  ∧ ¬ (manage_prefabs
         (Services0 := mock_services one_editor
                         (Ret (hierarchy_reply [VStr "Root/Body"; VStr "Root/Head"])))
         "session-1" get_hierarchy_args []).1
      = Ret (success_envelope (VStr "Operation successful.")
               (hierarchy_page [VStr "Root/Body"; VStr "Root/Head"])).
Proof.
  split; [vm_compute; reflexivity|].
  intros H. apply (f_equal (λ o, result_field o "message")) in H.
  vm_compute in H. discriminate H.
Qed.

(** A failure reply comes back as it was sent, "error" key included. *)
Lemma prefab_not_found_passed_through :
  (manage_prefabs
     (Services0 := mock_services one_editor (Ret prefab_not_found_reply))
     "session-1" (only_action "open_stage") []).1
  = Ret prefab_not_found_reply.
Proof.
  eapply (failure_reply_passed_through
            (Services0 := mock_services one_editor (Ret prefab_not_found_reply))
            "session-1" (only_action "open_stage") [] (VStr "MyGame@a1b2c3")).
  - reflexivity.
  - reflexivity.
  - reflexivity.
  - right. exists (VBool false). split; reflexivity.
Defined.

(** That result is a failure without any "message". *)
Lemma failure_result_without_message :
  (manage_prefabs
     (Services0 := mock_services one_editor (Ret prefab_not_found_reply))
     "session-1" (only_action "open_stage") []).1
  = Ret prefab_not_found_reply
  ∧ is_failure_result prefab_not_found_reply = true
  ∧ result_field (Ret prefab_not_found_reply) "message" = None
  ∧ has_nonempty_message prefab_not_found_reply = false.
Proof. repeat split; vm_compute; reflexivity. Qed.

(** The same call, read through the two paths: it is on the failure path,
    as the reply handed back. *)
Lemma prefab_not_found_on_failure_path :
  is_failure_result prefab_not_found_reply = true
  ∧ is_success_result prefab_not_found_reply = false.
Proof.
  destruct (result_on_exactly_one_path
              (Services0 := mock_services one_editor (Ret prefab_not_found_reply))
              "session-1" (only_action "open_stage") []
              prefab_not_found_reply)
    as [(Hs & _)|(Hf & Hs & _)].
  - reflexivity.
  - vm_compute in Hs. discriminate Hs.
  - exact (conj Hf Hs).
Defined.

(** A bare string as reply. *)
Lemma string_reply_stringified :
  (manage_prefabs (Services0 := mock_services one_editor (Ret (VStr "pong")))
     "session-1" (only_action "save_open_stage") []).1
  = Ret (VDict {[ "success" := VBool false; "message" := VStr "pong" ]}).
Proof.
  eapply (non_mapping_reply_stringified
            (Services0 := mock_services one_editor (Ret (VStr "pong")))
            "session-1" (only_action "save_open_stage") []
            (VStr "MyGame@a1b2c3") _ (VStr "pong")); reflexivity.
Defined.

(** An empty action is sent as it is. *)
Lemma empty_action_dispatched :
  (manage_prefabs (Services0 := mock_services one_editor (Ret VNone))
     "session-1" (only_action "") []).2
  = [mkSend (VStr "MyGame@a1b2c3") "manage_prefabs" {[ "action" := VStr "" ]}]
  ∧ ({[ "action" := VStr "" ]} : gmap string PyVal) !! "action"
    = Some (VStr "").
Proof.
  eapply (action_dispatched_as_supplied
            (Services0 := mock_services one_editor (Ret VNone))
            "session-1" (only_action "") [] (VStr "MyGame@a1b2c3")
            {[ "action" := VStr "" ]}).
  - reflexivity.
  - vm_compute. reflexivity.
Defined.

(** A success reply with a stray key and no data. *)
Lemma stray_keys_dropped :
  ∃ r,
    (manage_prefabs
       (Services0 := mock_services one_editor
          (Ret (VDict {[ "success" := VBool true; "message" := VStr "Saved.";
                         "elapsedMs" := VInt 12 ]})))
       "session-1" (only_action "save_open_stage") []).1 = Ret (VDict r)
    ∧ dom r = ({[ "success"; "message"; "data" ]} : gset string)
    ∧ r !! "data" = Some VNone
    ∧ r !! "elapsedMs" = None.
Proof.
  destruct (success_result_has_three_keys
              (Services0 := mock_services one_editor
                 (Ret (VDict {[ "success" := VBool true;
                                "message" := VStr "Saved.";
                                "elapsedMs" := VInt 12 ]})))
              "session-1" (only_action "save_open_stage") []
              (VStr "MyGame@a1b2c3") {[ "action" := VStr "save_open_stage" ]}
              {[ "success" := VBool true; "message" := VStr "Saved.";
                 "elapsedMs" := VInt 12 ]})
    as (r & Hr & Hdom & _ & Hdata & Hother).
  - reflexivity.
  - vm_compute. reflexivity.
  - reflexivity.
  - reflexivity.
  - exists r. split; [exact Hr|]. split; [exact Hdom|].
    split; [apply Hdata; reflexivity|by apply Hother].
Defined.

(** With the modelled coercions: an uninterpretable flag, an empty path and
    a non-numeric page size are all left out. *)
Lemma uninterpretable_inputs_omitted :
  ∃ params,
    build_params (Services0 := mock_services one_editor (Ret VNone))
      (mkArgs (VStr "get_hierarchy") (VStr "") VNone (VStr "maybe") VNone
         VNone VNone (VStr "Root") (VStr "many") (VStr "10") (VBool true))
    = Ret params
    ∧ params = {[ "action" := VStr "get_hierarchy"; "parent" := VStr "Root";
                  "cursor" := VInt 10; "includeTransform" := VBool true ]}.
Proof.
  destruct (params_hold_only_defined_fields
              (Services0 := mock_services one_editor (Ret VNone))
              (mkArgs (VStr "get_hierarchy") (VStr "") VNone (VStr "maybe") VNone
                 VNone VNone (VStr "Root") (VStr "many") (VStr "10") (VBool true))
              (mock_coercions_never_raise _ _) (mock_coercions_keep_absent _ _))
    as (params & Hb & _).
  exists params. split; [exact Hb|].
  vm_compute in Hb. injection Hb as <-. vm_compute. reflexivity.
Defined.

(** * Further properties of the tool *)

Lemma dom_set_if_truthy k v (params : gmap string PyVal) :
  dom (set_if_truthy k v params) ⊆ {[ k ]} ∪ dom params.
Proof.
  unfold set_if_truthy. destruct (py_truthy v); [|set_solver].
  rewrite dom_insert_L. set_solver.
Qed.

Lemma dom_set_if_not_none k v (params : gmap string PyVal) :
  dom (set_if_not_none k v params) ⊆ {[ k ]} ∪ dom params.
Proof.
  unfold set_if_not_none. destruct (is_none v); [set_solver|].
  rewrite dom_insert_L. set_solver.
Qed.

Lemma set_if_truthy_keeps_defined k v params :
  none_only_at_action params → none_only_at_action (set_if_truthy k v params).
Proof.
  intros Hp k' Hk'. unfold set_if_truthy.
  destruct (py_truthy v) eqn:Ht; [|by apply Hp].
  destruct (decide (k = k')) as [->|Hne].
  - rewrite lookup_insert_eq. intros [= ->]. done.
  - rewrite lookup_insert_ne by done. by apply Hp.
Qed.

Lemma set_if_not_none_keeps_defined k v params :
  none_only_at_action params → none_only_at_action (set_if_not_none k v params).
Proof.
  intros Hp k' Hk'. unfold set_if_not_none.
  destruct (is_none v) eqn:Hn; [by apply Hp|].
  destruct (decide (k = k')) as [->|Hne].
  - rewrite lookup_insert_eq. intros [= ->]. done.
  - rewrite lookup_insert_ne by done. by apply Hp.
Qed.

Lemma error_result_not_success e : is_success_result (error_result e) = false.
Proof. done. Qed.

Lemma success_result_truthy d :
  is_success_result (VDict d) = true → py_truthy (dict_get d "success") = true.
Proof.
  simpl. unfold dict_get.
  by destruct (d !! "success") as [[| [] | | | | |]|].
Qed.

Section further.
Context {Ctx : Type} `{!Services Ctx}.
Implicit Types (ctx : Ctx) (a : Args) (log : list SendCall).
Implicit Types (params d : gmap string PyVal) (e : PyExc).

(** X1: a call dispatches at most once. The log of earlier dispatches is
    kept and either nothing is appended, or one entry: the command
    "manage_prefabs" for the instance the resolver returned, with the
    parameters that were built. *)
Theorem at_most_one_dispatch ctx a log :
  ∃ sends,
    (manage_prefabs ctx a log).2 = (log ++ sends)%list ∧
    (sends = [] ∨
     ∃ inst params,
       get_unity_instance_from_context ctx = Ret inst ∧
       build_params a = Ret params ∧
       sends = [mkSend inst "manage_prefabs" params]).
Proof.
  destruct (manage_prefabs_run ctx a log) as (out & sends & Heq & Hrun).
  exists sends. rewrite Heq. split; [done|].
  inversion Hrun; subst; [by left|by left|right|right];
    by eexists _, _.
Qed.


(** X3: the ways an error leaves the function. A call raises [e] exactly
    when the resolver raised [e], or when [e] does not derive from
    [Exception] (a cancellation, say) and was raised while the parameters
    were built or by the dispatch. *)
Theorem raises_iff ctx a log e :
  (manage_prefabs ctx a log).1 = Raise e ↔
  get_unity_instance_from_context ctx = Raise e ∨
  (exc_is_exception e = false ∧
   ∃ inst, get_unity_instance_from_context ctx = Ret inst ∧
     (build_params a = Raise e ∨
      ∃ params, build_params a = Ret params ∧
        send_with_unity_instance inst "manage_prefabs" params = Raise e)).
Proof.
  destruct (get_unity_instance_from_context ctx) as [inst|e0] eqn:Hres.
  - destruct (build_params a) as [params|e1] eqn:Hb.
    + destruct (send_with_unity_instance inst "manage_prefabs" params)
        as [response|e2] eqn:Hs.
      * rewrite (run_reply _ _ _ _ _ _ Hres Hb Hs). simpl. split; [done|].
        intros [?|(Hne & inst' & Hi & [?|(params' & Hp & Hs')])];
          simplify_eq; congruence.
      * rewrite (run_dispatch_raises _ _ _ _ _ _ Hres Hb Hs). simpl.
        destruct (exc_is_exception e2) eqn:He2; split.
        -- done.
        -- intros [?|(Hne & inst' & Hi & [?|(params' & Hp & Hs')])];
             simplify_eq; congruence.
        -- intros [= <-]. right. split; [done|]. exists inst.
           split; [done|]. right. by exists params.
        -- intros [?|(Hne & inst' & Hi & [?|(params' & Hp & Hs')])];
             simplify_eq; congruence.
    + rewrite (run_build_raises _ _ _ _ _ Hres Hb). simpl.
      destruct (exc_is_exception e1) eqn:He1; split.
      * done.
      * intros [?|(Hne & inst' & Hi & [?|(params' & Hp & Hs')])];
          simplify_eq; congruence.
      * intros [= <-]. right. split; [done|]. exists inst.
        split; [done|]. by left.
      * intros [?|(Hne & inst' & Hi & [?|(params' & Hp & Hs')])];
          simplify_eq; congruence.
  - rewrite (run_resolution_raises _ _ _ _ Hres). simpl. split.
    + intros [= <-]. by left.
    + intros [?|(Hne & inst' & Hi & _)]; simplify_eq; congruence.
Qed.

(** X6: success is never made up. The call returns a result whose "success"
    is [True] exactly when the resolver returned, the parameters were
    built, and the dispatch answered with a mapping whose "success" is
    truthy. *)
Theorem success_result_iff ctx a log :
  (∃ r, (manage_prefabs ctx a log).1 = Ret r ∧ is_success_result r = true) ↔
  (∃ inst params d,
     get_unity_instance_from_context ctx = Ret inst ∧
     build_params a = Ret params ∧
     send_with_unity_instance inst "manage_prefabs" params = Ret (VDict d) ∧
     py_truthy (default VNone (d !! "success")) = true).
Proof.
  split.
  - intros (r & Hr & Hsucc).
    destruct (manage_prefabs_run ctx a log) as (out & sends & Heq & Hrun).
    rewrite Heq in Hr. simpl in Hr. subst out.
    inversion Hrun as [|inst e Hres Hb Ho|inst params e Hres Hb Hs Ho
                      |inst params response Hres Hb Hs Ho]; subst.
    + destruct (exc_is_exception e); [|done].
      injection Ho as <-. by rewrite error_result_not_success in Hsucc.
    + destruct (exc_is_exception e); [|done].
      injection Ho as <-. by rewrite error_result_not_success in Hsucc.
    + destruct response as [| | | | | |d]; try done.
      exists inst, params, d. do 3 (split; [done|]).
      simpl in Hsucc.
      destruct (py_truthy (dict_get d "success")) eqn:Ht; [done|].
      apply success_result_truthy in Hsucc. congruence.
  - intros (inst & params & d & Hres & Hb & Hs & Ht).
    eexists. rewrite (run_reply _ _ _ _ _ _ Hres Hb Hs).
    split; [done|]. by rewrite normalize_response_success.
Qed.

(** X4: whenever the parameters are built, their keys are among the
    eleven keys of lines 49-76, "action" is one of them, and no other key
    holds [None]. *)
Theorem built_params_keys a params :
  build_params a = Ret params →
  dom params ⊆ known_keys ∧
  "action" ∈ dom params ∧
  none_only_at_action params.
Proof.
  intros Hb. split; [|split].
  - destruct (build_params_inv _ _ Hb)
      as (v1 & v2 & v3 & v4 & v5 & v6 & _ & _ & _ & _ & _ & _ & ->).
    unfold params_with, known_keys.
    repeat (etrans;
            [first [apply dom_set_if_not_none|apply dom_set_if_truthy]|];
            apply union_least; [set_solver|]).
    rewrite dom_singleton_L. set_solver.
  - apply elem_of_dom. rewrite (build_params_action _ _ Hb). by eexists.
  - destruct (build_params_inv _ _ Hb)
      as (v1 & v2 & v3 & v4 & v5 & v6 & _ & _ & _ & _ & _ & _ & ->).
    unfold params_with.
    repeat first [ apply set_if_not_none_keeps_defined
                 | apply set_if_truthy_keeps_defined ].
    intros k Hk. by rewrite lookup_singleton_ne.
Qed.

(** X5: an error while the parameters are built is always the error of a
    coercion, and of the first one that raises in the order of the source;
    when no coercion raises, the parameters are built. *)
Theorem build_params_error_iff a :
  (∀ e, build_params a = Raise e ↔ first_raise (coercion_calls a) = Some e) ∧
  ((∃ params, build_params a = Ret params) ↔
   first_raise (coercion_calls a) = None).
Proof.
  unfold build_params, coercion_calls, mbind, Outcome_bind, mret, Outcome_ret.
  destruct (coerce_bool (save_before_close a)); simpl;
    [|split; [intros; split; congruence|split; [intros [? ?]|]; congruence]].
  destruct (coerce_bool (allow_overwrite a)); simpl;
    [|split; [intros; split; congruence|split; [intros [? ?]|]; congruence]].
  destruct (coerce_bool (search_inactive a)); simpl;
    [|split; [intros; split; congruence|split; [intros [? ?]|]; congruence]].
  destruct (coerce_int (page_size a) VNone); simpl;
    [|split; [intros; split; congruence|split; [intros [? ?]|]; congruence]].
  destruct (coerce_int (cursor a) VNone); simpl;
    [|split; [intros; split; congruence|split; [intros [? ?]|]; congruence]].
  destruct (coerce_bool (include_transform a)); simpl;
    [|split; [intros; split; congruence|split; [intros [? ?]|]; congruence]].
  split; [intros; split; congruence|]. split; [done|]. by eexists.
Qed.

(** X7: the optional fields do not interfere. Between two calls that agree
    on one optional argument, the entry of its key is the same, whatever
    the other arguments are. *)
Theorem optional_field_depends_on_own_argument a a' params params' k kind arg :
  build_params a = Ret params →
  build_params a' = Ret params' →
  (k, kind, arg) ∈ optional_fields →
  arg a = arg a' →
  params !! k = params' !! k.
Proof.
  intros Hb Hb' Hin Harg.
  destruct (build_params_inv _ _ Hb)
    as (v1 & v2 & v3 & v4 & v5 & v6 & H1 & H2 & H3 & H4 & H5 & H6 & ->).
  destruct (build_params_inv _ _ Hb')
    as (w1 & w2 & w3 & w4 & w5 & w6 & G1 & G2 & G3 & G4 & G5 & G6 & ->).
  pose proof (λ v, params_with_optional a v1 v2 v3 v4 v5 v6 k kind arg v
                     H1 H2 H3 H4 H5 H6 Hin) as Hiff.
  pose proof (λ v, params_with_optional a' w1 w2 w3 w4 w5 w6 k kind arg v
                     G1 G2 G3 G4 G5 G6 Hin) as Hiff'.
  rewrite <- Harg in Hiff'.
  apply option_eq. intros v. by rewrite Hiff, Hiff'.
Qed.

(** X8: the page size is forwarded as coerced. Whatever the coercion
    returns for [page_size] is what "pageSize" holds: no default is filled
    in when it returns [None] (the key is left out), and no upper bound is
    applied to the integer it returns. *)
Theorem page_size_forwarded_unchanged a params v :
  build_params a = Ret params →
  coerce_int (page_size a) VNone = Ret v →
  params !! "pageSize" = (if is_none v then None else Some v).
Proof.
  intros Hb Hv.
  destruct (build_params_inv _ _ Hb)
    as (v1 & v2 & v3 & v4 & v5 & v6 & _ & _ & _ & H4 & _ & _ & ->).
  rewrite Hv in H4. injection H4 as <-.
  lookup_params. done.
Qed.

End further.

(** ** The further properties on concrete calls *)


(** A cancellation during the dispatch is raised to the caller. *)
Lemma cancellation_reaches_caller :
  (manage_prefabs (Services0 := mock_services one_editor (Raise cancelled))
     "session-1" (only_action "save_open_stage") []).1 = Raise cancelled.
Proof.
  apply (proj2 (raises_iff
                  (Services0 := mock_services one_editor (Raise cancelled))
                  "session-1" (only_action "save_open_stage") [] cancelled)).
  right. split; [reflexivity|].
  exists (VStr "MyGame@a1b2c3"). split; [reflexivity|].
  right. eexists. split; reflexivity.
Defined.

(** The keys of the [get_hierarchy] scenario. *)
Lemma get_hierarchy_keys_known :
  dom ({[ "action" := VStr "get_hierarchy"; "parent" := VStr "Root";
          "pageSize" := VInt 50; "cursor" := VInt 0 ]} : gmap string PyVal)
    ⊆ known_keys
  ∧ "action" ∈ dom ({[ "action" := VStr "get_hierarchy";
                       "parent" := VStr "Root"; "pageSize" := VInt 50;
                       "cursor" := VInt 0 ]} : gmap string PyVal)
  ∧ none_only_at_action {[ "action" := VStr "get_hierarchy";
                           "parent" := VStr "Root"; "pageSize" := VInt 50;
                           "cursor" := VInt 0 ]}.
Proof.
  apply (built_params_keys
           (Services0 := mock_services one_editor (Ret VNone))
           get_hierarchy_args).
  vm_compute. reflexivity.
Defined.

(** Two rejected inputs: the error is that of the first coercion in source
    order, here the one of [save_before_close]. *)
Lemma first_rejected_flag_reported :
  build_params (Services0 := strict_services one_editor (Ret VNone))
    (mkArgs (VStr "close_stage") VNone VNone (VInt 1) VNone VNone VNone
       VNone (VStr "many") VNone (VStr "yes"))
  = Raise (mkExc "ValueError" true "not a boolean").
Proof.
  apply (proj1 (build_params_error_iff
                  (Services0 := strict_services one_editor (Ret VNone))
                  (mkArgs (VStr "close_stage") VNone VNone (VInt 1) VNone VNone
                     VNone VNone (VStr "many") VNone (VStr "yes")))).
  reflexivity.
Defined.

(** The scenario's reply is what makes the result a success. *)
Lemma get_hierarchy_success_from_reply :
  ∃ r,
    (manage_prefabs
       (Services0 := mock_services one_editor
                       (Ret (hierarchy_reply [VStr "Root/Body"])))
       "session-1" get_hierarchy_args []).1 = Ret r
    ∧ is_success_result r = true.
Proof.
  apply (proj2 (success_result_iff
                  (Services0 := mock_services one_editor
                                  (Ret (hierarchy_reply [VStr "Root/Body"])))
                  "session-1" get_hierarchy_args [])).
  exists (VStr "MyGame@a1b2c3"). eexists. eexists.
  split; [reflexivity|]. split; [reflexivity|].
  split; [reflexivity|]. reflexivity.
Defined.

(** Same parent, different paging: the "parent" entry is the same. *)
Lemma parent_entry_independent_of_paging :
  ({[ "action" := VStr "get_hierarchy"; "parent" := VStr "Root";
      "pageSize" := VInt 50; "cursor" := VInt 0 ]} : gmap string PyVal)
    !! "parent"
  = ({[ "action" := VStr "get_hierarchy"; "parent" := VStr "Root";
        "pageSize" := VInt 10; "includeTransform" := VBool true ]}
      : gmap string PyVal) !! "parent".
Proof.
  apply (optional_field_depends_on_own_argument
           (Services0 := mock_services one_editor (Ret VNone))
           get_hierarchy_args
           (mkArgs (VStr "get_hierarchy") VNone VNone VNone VNone VNone VNone
              (VStr "Root") (VStr "10") VNone (VStr "true"))
           _ _ "parent" StringField parent).
  - vm_compute. reflexivity.
  - vm_compute. reflexivity.
  - do 6 apply list_elem_of_further. apply list_elem_of_here.
  - reflexivity.
Defined.

(** A page size far above 500 is forwarded as it is. *)
Lemma large_page_size_forwarded :
  ({[ "action" := VStr "get_hierarchy"; "pageSize" := VInt 100000 ]}
    : gmap string PyVal) !! "pageSize" = Some (VInt 100000).
Proof.
  apply (page_size_forwarded_unchanged
           (Services0 := mock_services one_editor (Ret VNone))
           (mkArgs (VStr "get_hierarchy") VNone VNone VNone VNone VNone VNone
              VNone (VInt 100000) VNone VNone)
           _ (VInt 100000)).
  - vm_compute. reflexivity.
  - reflexivity.
Defined.
